(** * NAND-FLASH: the SPI NAND driver behind the LittleFS block-device hooks

    A shallow embedding of [src/main/main.c]: the command encoders
    ([write_enable], [erase_block], [load_program_data], [program_execute],
    [page_data_read], [read_data]), the status poller [wait_ready] and the four
    LittleFS hooks ([lfs_read], [lfs_prog], [lfs_erase], [lfs_sync]).

    The SPI bus is the environment.  Every call of [spi_device_transmit]
    appends the transaction to a log and consumes the next reply of the chip;
    a reply carries the [esp_err_t] the call returns and the bytes it leaves in
    the receive buffer.  The driver functions are written in a small state
    monad over that world.  The one loop of the program, the [do ... while] of
    [wait_ready], has no bound in the source: it is given fuel, and running out
    of fuel is a distinct outcome ([Spin]) that carries the world reached. *)

From Stdlib Require Import ZArith List Bool Lia.
Import ListNotations.
Local Open Scope Z_scope.

(** ** Machine integers

    [uint8_t], [uint16_t] and [uint32_t] values are integers of [Z]; a
    conversion to the type reduces modulo its width. *)

Definition u8 (x : Z) : Z := x mod 2 ^ 8.
Definition u16 (x : Z) : Z := x mod 2 ^ 16.
Definition u32 (x : Z) : Z := x mod 2 ^ 32.

Definition is_u32 (x : Z) : Prop := 0 <= x < 2 ^ 32.

(** ** Constants of the source *)

Definition PAGE_SIZE : Z := 2048.
Definition PAGES_PER_BLOCK : Z := 64.
Definition BLOCK_SIZE : Z := PAGE_SIZE * PAGES_PER_BLOCK.

Definition CMD_WRITE_ENABLE : Z := 0x06.
Definition CMD_LOAD_PROGRAM : Z := 0x02.
Definition CMD_PROGRAM_EXECUTE : Z := 0x10.
Definition CMD_READ_STATUS : Z := 0x0F.
Definition CMD_PAGE_DATA_READ : Z := 0x13.
Definition CMD_READ_DATA : Z := 0x03.
Definition CMD_BLOCK_ERASE : Z := 0xD8.

(** ** The SPI transport *)

Definition esp_err_t := Z.
Definition ESP_OK : esp_err_t := 0.
Definition ESP_FAIL : esp_err_t := -1.

(** The fields of [spi_transaction_t] the driver sets: the transaction length
    and the receive length in bits ([0] when the initialiser leaves it out) and
    the bytes of the transmit buffer. *)
Record spi_transaction_t : Type := mkTransaction {
  t_length : Z;
  t_tx_buffer : list Z;
  t_rxlength : Z
}.

(** What one transaction gives back: the result code of
    [spi_device_transmit], and [rx i], the byte found at index [i] of the
    receive buffer once the call has returned. *)
Record reply : Type := mkReply {
  ret_code : esp_err_t;
  rx : nat -> Z
}.

(** What the driver does to the outside, in program order. *)
Inductive event : Type :=
| Transmit (t : spi_transaction_t)
| TaskDelay (ms : Z).

(** The world: the chip's reply to the [n]-th transaction, the number of
    transactions already made (the global [spi] handle is the only device), and
    the log of events. *)
Record World : Type := mkWorld {
  chip : nat -> reply;
  sent : nat;
  log : list event
}.

(** ** The monad of the driver *)

Inductive outcome (A : Type) : Type :=
| Ret (a : A) (w : World)
| Spin (w : World).
Arguments Ret {A} a w.
Arguments Spin {A} w.

Definition M (A : Type) : Type := World -> outcome A.

Definition ret {A : Type} (a : A) : M A := fun w => Ret a w.

Definition bind {A B : Type} (m : M A) (k : A -> M B) : M B :=
  fun w =>
    match m w with
    | Ret a w' => k a w'
    | Spin w' => Spin w'
    end.

Notation "x <- m ;; k" := (bind m (fun x => k))
  (at level 61, m at next level, right associativity).
Notation "m ;;; k" := (bind m (fun _ => k))
  (at level 61, right associativity).

Definition spi_device_transmit (t : spi_transaction_t) : M reply :=
  fun w =>
    Ret (chip w (sent w))
        (mkWorld (chip w) (S (sent w)) (log w ++ [Transmit t])).

(** [vTaskDelay(pdMS_TO_TICKS(ms))]. *)
Definition vTaskDelay (ms : Z) : M unit :=
  fun w => Ret tt (mkWorld (chip w) (sent w) (log w ++ [TaskDelay ms])).

(** ** StatusPoller *)

Definition status_transaction : spi_transaction_t :=
  mkTransaction 16 [CMD_READ_STATUS; 0xC0] 0.

(** The loop condition [status & 0x01]. *)
Definition busy (status : Z) : bool := negb (Z.land status 0x01 =? 0).

(** [wait_ready]: one unit of fuel pays for one turn of the [do ... while]
    loop. *)
Fixpoint wait_ready (fuel : nat) : M unit :=
  match fuel with
  | O => fun w => Spin w
  | S fuel' =>
      r <- spi_device_transmit status_transaction ;;
      vTaskDelay 1 ;;;
      let status := u8 (rx r 0) in
      if busy status then wait_ready fuel' else ret tt
  end.

(** ** NandOperations *)

Definition write_enable : M unit :=
  let cmd := CMD_WRITE_ENABLE in
  spi_device_transmit (mkTransaction 8 [cmd] 0) ;;;
  ret tt.

Definition erase_block (fuel : nat) (block : Z) : M unit :=
  write_enable ;;;
  let row_addr := u32 (block * PAGES_PER_BLOCK) in
  let cmd := [CMD_BLOCK_ERASE; u8 (Z.shiftr row_addr 16);
              u8 (Z.shiftr row_addr 8); u8 row_addr] in
  spi_device_transmit (mkTransaction 32 cmd 0) ;;;
  wait_ready fuel.

(** [data] is the memory at the [data] pointer; the first [len] bytes of it
    follow the four command bytes in the transmit buffer. *)
Definition load_program_data (col : Z) (data : list Z) (len : Z) : M unit :=
  let cmd := [CMD_LOAD_PROGRAM; u8 (Z.shiftr col 8); u8 col; 0] in
  let tx_buf := cmd ++ firstn (Z.to_nat len) data in
  spi_device_transmit (mkTransaction (u32 ((4 + len) * 8)) tx_buf 0) ;;;
  ret tt.

Definition program_execute (fuel : nat) (page : Z) : M unit :=
  write_enable ;;;
  let cmd := [CMD_PROGRAM_EXECUTE; u8 (Z.shiftr page 16);
              u8 (Z.shiftr page 8); u8 page] in
  spi_device_transmit (mkTransaction 32 cmd 0) ;;;
  wait_ready fuel.

Definition page_data_read (fuel : nat) (page : Z) : M unit :=
  let cmd := [CMD_PAGE_DATA_READ; u8 (Z.shiftr page 16);
              u8 (Z.shiftr page 8); u8 page] in
  spi_device_transmit (mkTransaction 32 cmd 0) ;;;
  wait_ready fuel.

(** [read_data] fills the caller's buffer; here it returns the [len] bytes
    written there. *)
Definition read_data (col : Z) (len : Z) : M (list Z) :=
  let cmd := [CMD_READ_DATA; u8 (Z.shiftr col 8); u8 col; 0x00] in
  r <- spi_device_transmit
         (mkTransaction (u32 ((4 + len) * 8)) cmd (u32 (len * 8))) ;;
  ret (map (fun i => u8 (rx r i)) (seq 0 (Z.to_nat len))).

(** ** BlockDeviceAdapter: the LittleFS hooks *)

(** The fields of [struct lfs_config] that [initialize_lfs] sets (the four
    callbacks are the hooks below). *)
Record lfs_config : Type := mkConfig {
  read_size : Z;
  prog_size : Z;
  block_size : Z;
  block_count : Z;
  block_cycles : Z;
  cache_size : Z;
  lookahead_size : Z;
  name_max : Z
}.

Definition cfg : lfs_config :=
  mkConfig 256 256 BLOCK_SIZE 1024 1 2048 128 255.

(** The address computation that opens [lfs_read] and [lfs_prog]:
    [lfs_block_t] and [lfs_off_t] are [uint32_t], [page] is a [uint32_t] and
    [col] a [uint16_t]. *)
Definition page_of (block offset : Z) : Z :=
  u32 (u32 (block * PAGES_PER_BLOCK) + offset / PAGE_SIZE).

Definition col_of (offset : Z) : Z := u16 (offset mod PAGE_SIZE).

Definition lfs_read (fuel : nat) (c : lfs_config) (block offset size : Z)
  : M (Z * list Z) :=
  let page := page_of block offset in
  let col := col_of offset in
  page_data_read fuel page ;;;
  buffer <- read_data col size ;;
  ret (0, buffer).

Definition lfs_prog (fuel : nat) (c : lfs_config) (block offset : Z)
  (buffer : list Z) (size : Z) : M Z :=
  let page := page_of block offset in
  let col := col_of offset in
  load_program_data col buffer size ;;;
  program_execute fuel page ;;;
  ret 0.

Definition lfs_erase (fuel : nat) (c : lfs_config) (block : Z) : M Z :=
  erase_block fuel block ;;;
  ret 0.

Definition lfs_sync (c : lfs_config) : M Z := ret 0.

(** The manual test at the head of [app_main]. *)
Definition hello : list Z := [104; 101; 108; 108; 111].

Definition app_main_manual_test (fuel : nat) : M unit :=
  write_enable ;;;
  load_program_data 0x1100 hello 5 ;;;
  program_execute fuel 0x1100.

(** ** Vocabulary of the statements *)

(** The value an operation returns, if it returns, and the world it leaves
    (or has reached when the fuel ran out). *)
Definition result {A : Type} (o : outcome A) : option A :=
  match o with
  | Ret a _ => Some a
  | Spin _ => None
  end.

Definition world_of {A : Type} (o : outcome A) : World :=
  match o with
  | Ret _ w => w
  | Spin w => w
  end.

(** The value of a byte sequence read in big-endian order. *)
Definition be_value (bytes : list Z) : Z :=
  fold_left (fun acc b => acc * 256 + b) bytes 0.

(** The status byte the [i]-th poll from world [w] leaves in [status]. *)
Definition status_at (w : World) (i : nat) : Z :=
  u8 (rx (chip w (sent w + i)) 0).

(** The events of [n] turns of the polling loop. *)
Fixpoint poll_events (n : nat) : list event :=
  match n with
  | O => []
  | S n' => Transmit status_transaction :: TaskDelay 1 :: poll_events n'
  end.

(** The world after [n] turns of the polling loop. *)
Definition polled (w : World) (n : nat) : World :=
  mkWorld (chip w) (sent w + n) (log w ++ poll_events n).

(** The world after the transactions [ts], with no delay between them. *)
Definition transmitted (w : World) (ts : list spi_transaction_t) : World :=
  mkWorld (chip w) (sent w + length ts) (log w ++ map Transmit ts).

(** After [k] further transactions, the chip answers busy to [n] polls and
    ready to the next one. *)
Definition ready_after (w : World) (k n : nat) : Prop :=
  (forall i, (i < n)%nat -> busy (status_at w (k + i)) = true) /\
  busy (status_at w (k + n)) = false.

(** The number of leading status bytes with bit 0 set. *)
Fixpoint leading_busy (statuses : list Z) : nat :=
  match statuses with
  | s :: rest => if Z.testbit s 0 then S (leading_busy rest) else O
  | [] => O
  end.

(** The polls from world [w] read the bytes of [statuses], in order. *)
Definition polls_read (w : World) (statuses : list Z) : Prop :=
  forall i, (i < length statuses)%nat -> status_at w i = nth i statuses 0.

(** The number of status-read transactions in a log. *)
Definition is_status_read (e : event) : bool :=
  match e with
  | Transmit (mkTransaction _ (op :: _) _) => op =? CMD_READ_STATUS
  | _ => false
  end.

Definition status_reads (l : list event) : nat :=
  length (filter is_status_read l).

(** The opcode of every transaction of a log, in order. *)
Definition opcodes (l : list event) : list Z :=
  flat_map (fun e => match e with
                     | Transmit t => firstn 1 (t_tx_buffer t)
                     | TaskDelay _ => []
                     end) l.

(** The first result code other than [ESP_OK] among the replies to the
    transactions made between world [w] and world [w']. *)
Definition first_error (w w' : World) : option esp_err_t :=
  find (fun e => negb (e =? ESP_OK))
       (map (fun i => ret_code (chip w i)) (seq (sent w) (sent w' - sent w))).

(** The commands of the driver, as transactions. *)
Definition write_enable_transaction : spi_transaction_t :=
  mkTransaction 8 [CMD_WRITE_ENABLE] 0.

Definition row_transaction (opcode row : Z) : spi_transaction_t :=
  mkTransaction 32 [opcode; u8 (Z.shiftr row 16); u8 (Z.shiftr row 8); u8 row] 0.

Definition load_transaction (col : Z) (data : list Z) (len : Z)
  : spi_transaction_t :=
  mkTransaction (u32 ((4 + len) * 8))
    ([CMD_LOAD_PROGRAM; u8 (Z.shiftr col 8); u8 col; 0]
       ++ firstn (Z.to_nat len) data) 0.

Definition read_transaction (col len : Z) : spi_transaction_t :=
  mkTransaction (u32 ((4 + len) * 8))
    [CMD_READ_DATA; u8 (Z.shiftr col 8); u8 col; 0] (u32 (len * 8)).

(** ** Chips to run the driver on *)

Definition boot (c : nat -> reply) : World := mkWorld c 0 [].

(** Answers every poll with the busy bit clear. *)
Definition ready_chip : nat -> reply := fun _ => mkReply ESP_OK (fun _ => 0x00).

(** Never clears the busy bit. *)
Definition stuck_chip : nat -> reply := fun _ => mkReply ESP_OK (fun _ => 0x01).

(** Every transaction fails at the transport; the receive buffer reads zero. *)
Definition faulty_chip : nat -> reply :=
  fun _ => mkReply ESP_FAIL (fun _ => 0x00).

(** The [n]-th transaction reads the [n]-th byte of [statuses], and [0x00]
    after the last. *)
Definition scripted_chip (statuses : list Z) : nat -> reply :=
  fun n => mkReply ESP_OK (fun _ => nth n statuses 0x00).

(** ** Vocabulary of the further properties *)

Definition is_u16 (x : Z) : Prop := 0 <= x < 2 ^ 16.

(** What a chip reads out of a command: the row address in the three bytes
    after the opcode, the column address in the two bytes after the opcode,
    and the payload after the four command bytes. *)
Definition row_on_wire (t : spi_transaction_t) : Z :=
  be_value (firstn 3 (skipn 1 (t_tx_buffer t))).

Definition column_on_wire (t : spi_transaction_t) : Z :=
  be_value (firstn 2 (skipn 1 (t_tx_buffer t))).

Definition payload_on_wire (t : spi_transaction_t) : list Z :=
  skipn 4 (t_tx_buffer t).

(** The number of delays in a log. *)
Definition is_delay (e : event) : bool :=
  match e with
  | TaskDelay _ => true
  | Transmit _ => false
  end.

Definition delays (l : list event) : nat := length (filter is_delay l).

(** Two worlds that differ at most in the result codes of the transport. *)
Definition same_rx (w1 w2 : World) : Prop :=
  sent w1 = sent w2 /\ log w1 = log w2 /\
  forall n i, rx (chip w1 n) i = rx (chip w2 n) i.

(** Two worlds whose polls agree on bit 0 of the status byte. *)
Definition same_bit0 (w1 w2 : World) : Prop :=
  sent w1 = sent w2 /\ log w1 = log w2 /\
  forall i, Z.testbit (status_at w1 i) 0 = Z.testbit (status_at w2 i) 0.

(** The opcodes that only read the chip. *)
Definition reading_opcode (op : Z) : Prop :=
  op = CMD_PAGE_DATA_READ \/ op = CMD_READ_STATUS \/ op = CMD_READ_DATA.

(** Erase a block, program into it and read the same place back, as the
    filesystem drives the three hooks one after the other. *)
Definition erase_prog_read (fuel : nat) (c : lfs_config) (block offset : Z)
  (buffer : list Z) (size : Z) : M (Z * Z * (Z * list Z)) :=
  e <- lfs_erase fuel c block ;;
  p <- lfs_prog fuel c block offset buffer size ;;
  r <- lfs_read fuel c block offset size ;;
  ret (e, p, r).

(** A ready chip whose status byte has every bit but bit 0 set. *)
Definition noisy_chip : nat -> reply := fun _ => mkReply ESP_OK (fun _ => 0xFE).

(** * Lemmas *)

(** ** Worlds *)

Lemma world_ext (c : nat -> reply) (s s' : nat) (l l' : list event) :
  s = s' -> l = l' -> mkWorld c s l = mkWorld c s' l'.
Proof. intros -> ->. reflexivity. Qed.

Ltac world_eq :=
  unfold polled, transmitted; cbn [chip sent log length map poll_events];
  apply world_ext;
  [ lia | repeat rewrite <- app_assoc; cbn [app]; try reflexivity ].

Lemma poll_events_app (a b : nat) :
  poll_events (a + b) = poll_events a ++ poll_events b.
Proof.
  induction a as [|a IH]; cbn [poll_events Nat.add app].
  - reflexivity.
  - now rewrite IH.
Qed.

Lemma polled_polled (w : World) (a b : nat) :
  polled (polled w a) b = polled w (a + b).
Proof. world_eq. now rewrite poll_events_app. Qed.

Lemma polled_0 (w : World) : polled w 0 = w.
Proof.
  destruct w as [c s l]. unfold polled; cbn.
  apply world_ext; [lia | apply app_nil_r].
Qed.

Lemma transmitted_app (w : World) (ts ts' : list spi_transaction_t) :
  transmitted (transmitted w ts) ts' = transmitted w (ts ++ ts').
Proof.
  unfold transmitted; cbn [chip sent log].
  apply world_ext.
  - rewrite length_app. lia.
  - now rewrite map_app, app_assoc.
Qed.

Lemma status_at_polled (w : World) (a i : nat) :
  status_at (polled w a) i = status_at w (a + i).
Proof. unfold status_at, polled; cbn. now rewrite Nat.add_assoc. Qed.

Lemma status_at_transmitted (w : World) (ts : list spi_transaction_t) (i : nat) :
  status_at (transmitted w ts) i = status_at w (length ts + i).
Proof. unfold status_at, transmitted; cbn. now rewrite Nat.add_assoc. Qed.

Lemma ready_after_transmitted (w : World) (ts : list spi_transaction_t) (n : nat) :
  ready_after w (length ts) n -> ready_after (transmitted w ts) 0 n.
Proof.
  intros [Hbusy Hready]; split.
  - intros i Hi. rewrite status_at_transmitted. now apply Hbusy.
  - now rewrite status_at_transmitted.
Qed.

(** ** The transport *)

Lemma transmit_run (t : spi_transaction_t) (w : World) :
  spi_device_transmit t w = Ret (chip w (sent w)) (transmitted w [t]).
Proof. unfold spi_device_transmit. f_equal. world_eq. Qed.

(** ** The polling loop *)

Lemma wait_ready_step (fuel : nat) (w : World) :
  wait_ready (S fuel) w =
  if busy (status_at w 0) then wait_ready fuel (polled w 1)
  else Ret tt (polled w 1).
Proof.
  cbn [wait_ready]. unfold bind, spi_device_transmit, vTaskDelay, ret, status_at.
  cbn [chip sent log]. rewrite Nat.add_0_r.
  assert (E : mkWorld (chip w) (S (sent w))
                ((log w ++ [Transmit status_transaction]) ++ [TaskDelay 1])
              = polled w 1) by world_eq.
  rewrite E. now destruct (busy _).
Qed.

(** The loop leaves at the first poll that reads the busy bit clear. *)
Lemma wait_ready_returns (n : nat) :
  forall (w : World) (fuel : nat),
    ready_after w 0 n -> (n < fuel)%nat ->
    wait_ready fuel w = Ret tt (polled w (S n)).
Proof.
  induction n as [|n IH]; intros w fuel [Hbusy Hready] Hfuel;
    (destruct fuel as [|fuel]; [lia|]); rewrite wait_ready_step.
  - change (0 + 0)%nat with 0%nat in Hready. now rewrite Hready.
  - change (0 + S n)%nat with (S n) in Hready.
    generalize (Hbusy 0%nat); change (0 + 0)%nat with 0%nat; intros ->; [|lia].
    rewrite (IH (polled w 1) fuel).
    + now rewrite polled_polled.
    + split.
      * intros i Hi. rewrite status_at_polled.
        apply (Hbusy (S i)). lia.
      * rewrite status_at_polled. exact Hready.
    + lia.
Qed.

(** While every poll reads the busy bit set, the loop goes on. *)
Lemma wait_ready_spins (fuel : nat) :
  forall w : World,
    (forall i, (i < fuel)%nat -> busy (status_at w i) = true) ->
    wait_ready fuel w = Spin (polled w fuel).
Proof.
  induction fuel as [|fuel IH]; intros w Hbusy.
  - cbn [wait_ready]. now rewrite polled_0.
  - rewrite wait_ready_step, (Hbusy 0%nat) by lia.
    rewrite IH.
    + now rewrite polled_polled.
    + intros i Hi. rewrite status_at_polled. apply (Hbusy (S i)). lia.
Qed.

(** A return of the loop exhibits the poll that read the busy bit clear. *)
Lemma wait_ready_Ret_inv (fuel : nat) :
  forall (w w' : World) (u : unit),
    wait_ready fuel w = Ret u w' ->
    exists n, (n < fuel)%nat /\ ready_after w 0 n /\ w' = polled w (S n).
Proof.
  induction fuel as [|fuel IH]; intros w w' u H.
  - discriminate H.
  - rewrite wait_ready_step in H.
    destruct (busy (status_at w 0)) eqn:E.
    + apply IH in H. destruct H as (n & Hn & [Hbusy Hready] & ->).
      exists (S n). split; [lia|]. split; [split|].
      * intros [|i] Hi; [exact E|].
        specialize (Hbusy i). rewrite status_at_polled in Hbusy.
        apply Hbusy. lia.
      * now rewrite status_at_polled in Hready.
      * now rewrite polled_polled.
    + injection H as _ <-. exists 0%nat. split; [lia|]. split; [split|].
      * intros i Hi; lia.
      * exact E.
      * reflexivity.
Qed.

(** ** The NAND operations on a chip that becomes ready *)

Ltac run_bind :=
  unfold bind at 1;
  first [ rewrite transmit_run | idtac ];
  cbv iota beta.

Lemma write_enable_run (w : World) :
  write_enable w = Ret tt (transmitted w [write_enable_transaction]).
Proof. unfold write_enable. run_bind. reflexivity. Qed.

Lemma load_program_data_run (col : Z) (data : list Z) (len : Z) (w : World) :
  load_program_data col data len w =
  Ret tt (transmitted w [load_transaction col data len]).
Proof. unfold load_program_data. run_bind. reflexivity. Qed.

Lemma read_data_run (col len : Z) (w : World) :
  read_data col len w =
  Ret (map (fun i => u8 (rx (chip w (sent w)) i)) (seq 0 (Z.to_nat len)))
      (transmitted w [read_transaction col len]).
Proof. unfold read_data. run_bind. reflexivity. Qed.

Lemma erase_block_run (block : Z) (w : World) (n fuel : nat) :
  ready_after w 2 n -> (n < fuel)%nat ->
  erase_block fuel block w =
  Ret tt (polled (transmitted w
                    [write_enable_transaction;
                     row_transaction CMD_BLOCK_ERASE
                       (u32 (block * PAGES_PER_BLOCK))]) (S n)).
Proof.
  intros Hready Hfuel. unfold erase_block.
  unfold bind at 1. rewrite write_enable_run. cbv iota beta zeta.
  run_bind. rewrite transmitted_app. cbn [app].
  now apply wait_ready_returns; [apply ready_after_transmitted|].
Qed.

Lemma program_execute_run (page : Z) (w : World) (n fuel : nat) :
  ready_after w 2 n -> (n < fuel)%nat ->
  program_execute fuel page w =
  Ret tt (polled (transmitted w
                    [write_enable_transaction;
                     row_transaction CMD_PROGRAM_EXECUTE page]) (S n)).
Proof.
  intros Hready Hfuel. unfold program_execute.
  unfold bind at 1. rewrite write_enable_run. cbv iota beta zeta.
  run_bind. rewrite transmitted_app. cbn [app].
  now apply wait_ready_returns; [apply ready_after_transmitted|].
Qed.

Lemma page_data_read_run (page : Z) (w : World) (n fuel : nat) :
  ready_after w 1 n -> (n < fuel)%nat ->
  page_data_read fuel page w =
  Ret tt (polled (transmitted w [row_transaction CMD_PAGE_DATA_READ page])
            (S n)).
Proof.
  intros Hready Hfuel. unfold page_data_read. cbv zeta.
  run_bind.
  now apply wait_ready_returns; [apply ready_after_transmitted|].
Qed.

(** ** The hooks on a chip that becomes ready *)

Lemma lfs_erase_run (c : lfs_config) (block : Z) (w : World) (n fuel : nat) :
  ready_after w 2 n -> (n < fuel)%nat ->
  lfs_erase fuel c block w =
  Ret 0 (polled (transmitted w
                   [write_enable_transaction;
                    row_transaction CMD_BLOCK_ERASE
                      (u32 (block * PAGES_PER_BLOCK))]) (S n)).
Proof.
  intros Hready Hfuel. unfold lfs_erase, bind.
  now rewrite (erase_block_run block w n fuel).
Qed.

Lemma lfs_prog_run (c : lfs_config) (block offset : Z) (buffer : list Z)
  (size : Z) (w : World) (n fuel : nat) :
  ready_after w 3 n -> (n < fuel)%nat ->
  lfs_prog fuel c block offset buffer size w =
  Ret 0 (polled (transmitted w
                   [load_transaction (col_of offset) buffer size;
                    write_enable_transaction;
                    row_transaction CMD_PROGRAM_EXECUTE (page_of block offset)])
           (S n)).
Proof.
  intros [Hbusy Hready] Hfuel. unfold lfs_prog. cbv zeta.
  unfold bind at 1. rewrite load_program_data_run. cbv iota beta.
  unfold bind at 1.
  rewrite (program_execute_run _ _ n fuel); [| |assumption].
  - cbv iota beta. unfold ret. now rewrite transmitted_app.
  - split.
    + intros i Hi. rewrite status_at_transmitted. now apply Hbusy.
    + now rewrite status_at_transmitted.
Qed.

Lemma lfs_read_run (c : lfs_config) (block offset size : Z) (w : World)
  (n fuel : nat) :
  ready_after w 1 n -> (n < fuel)%nat ->
  lfs_read fuel c block offset size w =
  Ret (0, map (fun i => u8 (rx (chip w (sent w + 1 + S n)) i))
            (seq 0 (Z.to_nat size)))
      (transmitted
         (polled (transmitted w
                    [row_transaction CMD_PAGE_DATA_READ (page_of block offset)])
            (S n))
         [read_transaction (col_of offset) size]).
Proof.
  intros Hready Hfuel. unfold lfs_read. cbv zeta.
  unfold bind at 1. rewrite (page_data_read_run _ _ n fuel) by assumption.
  cbv iota beta. unfold bind at 1. rewrite read_data_run. cbv iota beta.
  reflexivity.
Qed.

(** ** Bytes and bits *)

Lemma busy_testbit (s : Z) : busy s = Z.testbit s 0.
Proof.
  unfold busy. change 0x01 with (Z.ones 1).
  rewrite Z.land_ones by lia. rewrite Z.bit0_odd.
  change (2 ^ 1) with 2. rewrite Zmod_odd.
  now destruct (Z.odd s).
Qed.

(** The three address bytes of a row command carry the low 24 bits. *)
Lemma be_value_row (x : Z) :
  be_value [u8 (Z.shiftr x 16); u8 (Z.shiftr x 8); u8 x] = x mod 2 ^ 24.
Proof.
  unfold be_value, u8; cbn [fold_left].
  rewrite !Z.shiftr_div_pow2 by lia.
  change (2 ^ 16) with 65536; change (2 ^ 8) with 256;
    change (2 ^ 24) with 16777216.
  Z.div_mod_to_equations. lia.
Qed.

Lemma u8_range (x : Z) : 0 <= u8 x < 256.
Proof. unfold u8. change (2 ^ 8) with 256. apply Z.mod_pos_bound. lia. Qed.

(** ** The address computation *)

Lemma col_of_range (offset : Z) : 0 <= col_of offset < PAGE_SIZE.
Proof.
  unfold col_of, u16, PAGE_SIZE. change (2 ^ 16) with 65536.
  Z.div_mod_to_equations. lia.
Qed.

Lemma page_of_range (block offset : Z) : 0 <= page_of block offset < 2 ^ 32.
Proof. unfold page_of, u32. apply Z.mod_pos_bound. lia. Qed.

Lemma page_of_exact (block offset : Z) :
  0 <= block < 2 ^ 26 -> 0 <= offset < BLOCK_SIZE ->
  page_of block offset = block * PAGES_PER_BLOCK + offset / PAGE_SIZE.
Proof.
  unfold page_of, u32, BLOCK_SIZE, PAGES_PER_BLOCK, PAGE_SIZE.
  change (2 ^ 26) with 67108864; change (2 ^ 32) with 4294967296.
  intros Hb Ho. Z.div_mod_to_equations. lia.
Qed.

(** In [uint32_t] arithmetic the linear address is kept for every block. *)
Lemma linear_address_u32 (block offset : Z) :
  0 <= offset < BLOCK_SIZE ->
  u32 (page_of block offset * PAGE_SIZE + col_of offset) =
  u32 (block * BLOCK_SIZE + offset).
Proof.
  unfold page_of, col_of, u32, u16, BLOCK_SIZE, PAGES_PER_BLOCK, PAGE_SIZE.
  change (2 ^ 16) with 65536; change (2 ^ 32) with 4294967296.
  intros Ho. Z.div_mod_to_equations. lia.
Qed.

(** * The claims *)

(** ** Address translation *)

(** C2, as the code has it: for every [uint32_t] block and every offset in
    [[0, BLOCK_SIZE)], the column computed by [lfs_read] and [lfs_prog] is below
    [PAGE_SIZE], and [page * PAGE_SIZE + column] equals
    [block * BLOCK_SIZE + offset] exactly when [block] is below [2^26], the
    blocks for which the [uint32_t] page computation does not wrap (every
    block of the 1024-block geometry is one). *)
Theorem address_decomposition (block offset : Z) :
  is_u32 block -> 0 <= offset < BLOCK_SIZE ->
  0 <= col_of offset < PAGE_SIZE /\
  (page_of block offset * PAGE_SIZE + col_of offset = block * BLOCK_SIZE + offset
   <-> block < 2 ^ 26).
Proof.
  intros Hb Ho. split; [apply col_of_range|].
  pose proof (col_of_range offset) as Hc.
  pose proof (page_of_range block offset) as Hp.
  split.
  - intros E. unfold is_u32 in Hb.
    unfold BLOCK_SIZE, PAGES_PER_BLOCK, PAGE_SIZE in *.
    change (2 ^ 26) with 67108864; change (2 ^ 32) with 4294967296 in *.
    lia.
  - intros Hlt. rewrite page_of_exact by (unfold is_u32 in Hb; lia).
    unfold col_of, u16, BLOCK_SIZE, PAGES_PER_BLOCK, PAGE_SIZE in *.
    change (2 ^ 16) with 65536.
    Z.div_mod_to_equations. lia.
Qed.

Lemma address_decomposition_witness :
  0 <= col_of 5000 < PAGE_SIZE /\
  (page_of 3 5000 * PAGE_SIZE + col_of 5000 = 3 * BLOCK_SIZE + 5000
   <-> 3 < 2 ^ 26).
Proof.
  apply (address_decomposition 3 5000).
  - unfold is_u32. lia.
  - unfold BLOCK_SIZE, PAGE_SIZE, PAGES_PER_BLOCK. lia.
Defined.

(** C2 fails as stated: block [2^26] is a [uint32_t] and offset [0] lies in
    the block, but [block * PAGES_PER_BLOCK] wraps to page [0]. *)
Lemma address_decomposition_wraps :
  is_u32 67108864 /\ 0 <= 0 < BLOCK_SIZE /\
  page_of 67108864 0 = 0 /\
  page_of 67108864 0 * PAGE_SIZE + col_of 0 <> 67108864 * BLOCK_SIZE + 0.
Proof.
  unfold is_u32. repeat split; try (vm_compute; congruence).
Qed.

(** ** Row addresses on the wire *)

(** C10: [program_execute] and [page_data_read] send the opcode ([0x10],
    [0x13]) and three address bytes whose big-endian value is
    [page mod 2^24]; that value is the page exactly when
    [0 <= page < 2^24], and the 65536 pages of the geometry of [cfg] all are. *)
Theorem row_address_encoding (page : Z) :
  exists a2 a1 a0,
    (forall fuel w,
        program_execute fuel page w =
        wait_ready fuel
          (transmitted w [mkTransaction 8 [0x06] 0;
                          mkTransaction 32 [0x10; a2; a1; a0] 0])) /\
    (forall fuel w,
        page_data_read fuel page w =
        wait_ready fuel
          (transmitted w [mkTransaction 32 [0x13; a2; a1; a0] 0])) /\
    (0 <= a2 < 256 /\ 0 <= a1 < 256 /\ 0 <= a0 < 256) /\
    be_value [a2; a1; a0] = page mod 2 ^ 24 /\
    (be_value [a2; a1; a0] = page <-> 0 <= page < 2 ^ 24) /\
    block_count cfg * PAGES_PER_BLOCK = 65536 /\
    (0 <= page < block_count cfg * PAGES_PER_BLOCK ->
     be_value [a2; a1; a0] = page).
Proof.
  exists (u8 (Z.shiftr page 16)), (u8 (Z.shiftr page 8)), (u8 page).
  assert (Hiff : page mod 2 ^ 24 = page <-> 0 <= page < 2 ^ 24).
  { split; [intros <-; apply Z.mod_pos_bound; lia | apply Z.mod_small]. }
  rewrite be_value_row.
  split; [|split; [|split; [|split; [|split; [|split]]]]].
  - intros fuel w. unfold program_execute.
    unfold bind at 1. rewrite write_enable_run. cbv iota beta zeta.
    run_bind. now rewrite transmitted_app.
  - intros fuel w. unfold page_data_read. cbv zeta. run_bind. reflexivity.
  - repeat split; apply u8_range.
  - reflexivity.
  - exact Hiff.
  - reflexivity.
  - intros [H0 H1]. apply Hiff.
    change (block_count cfg * PAGES_PER_BLOCK) with 65536 in H1.
    change (2 ^ 24) with 16777216. lia.
Qed.

Lemma row_address_encoding_witness :
  exists a2 a1 a0,
    (forall fuel w,
        program_execute fuel 0x1100 w =
        wait_ready fuel
          (transmitted w [mkTransaction 8 [0x06] 0;
                          mkTransaction 32 [0x10; a2; a1; a0] 0])) /\
    be_value [a2; a1; a0] = 0x1100.
Proof.
  destruct (row_address_encoding 0x1100)
    as (a2 & a1 & a0 & Hp & _ & _ & _ & _ & _ & Hvalid).
  exists a2, a1, a0. split; [exact Hp|].
  apply Hvalid. vm_compute. split; congruence.
Defined.

(** ** sync *)

(** C8: [lfs_sync] returns [0] and leaves the world as it found it: no
    transaction, no delay, the same chip. *)
Theorem lfs_sync_noop (c : lfs_config) (w : World) :
  lfs_sync c w = Ret 0 w /\
  log (world_of (lfs_sync c w)) = log w /\
  sent (world_of (lfs_sync c w)) = sent w.
Proof. repeat split. Qed.

(** ** Block erase *)

(** C6, as the code has it: [erase_block] sends write-enable (the single byte
    [0x06]), then [0xD8] and three address bytes, then polls with
    [wait_ready]; the big-endian value of the three bytes is
    [block * PAGES_PER_BLOCK] modulo [2^24], which is the row address itself
    exactly for the blocks below [2^18] (every block of the 1024-block geometry
    is one). *)
Theorem erase_block_command (block : Z) :
  exists a2 a1 a0,
    (forall fuel w,
        erase_block fuel block w =
        wait_ready fuel
          (transmitted w [mkTransaction 8 [0x06] 0;
                          mkTransaction 32 [0xD8; a2; a1; a0] 0])) /\
    (0 <= a2 < 256 /\ 0 <= a1 < 256 /\ 0 <= a0 < 256) /\
    be_value [a2; a1; a0] = (block * PAGES_PER_BLOCK) mod 2 ^ 24 /\
    (be_value [a2; a1; a0] = block * PAGES_PER_BLOCK <-> 0 <= block < 2 ^ 18).
Proof.
  set (row_addr := u32 (block * PAGES_PER_BLOCK)).
  exists (u8 (Z.shiftr row_addr 16)), (u8 (Z.shiftr row_addr 8)), (u8 row_addr).
  assert (Hrow : row_addr mod 2 ^ 24 = (block * PAGES_PER_BLOCK) mod 2 ^ 24).
  { unfold row_addr, u32, PAGES_PER_BLOCK.
    change (2 ^ 32) with 4294967296; change (2 ^ 24) with 16777216.
    Z.div_mod_to_equations. lia. }
  rewrite be_value_row, Hrow.
  split; [|split; [|split]].
  - intros fuel w. unfold erase_block.
    unfold bind at 1. rewrite write_enable_run. cbv iota beta zeta.
    run_bind. now rewrite transmitted_app.
  - repeat split; apply u8_range.
  - reflexivity.
  - unfold PAGES_PER_BLOCK.
    change (2 ^ 24) with 16777216; change (2 ^ 18) with 262144.
    split; intros H; Z.div_mod_to_equations; lia.
Qed.

(** C6 fails as stated: block [2^18] is a [uint32_t], its row address is
    [2^24], and the command carries the address bytes of row [0]. *)
Lemma erase_block_truncates_row :
  is_u32 262144 /\
  log (world_of (erase_block 1 262144 (boot ready_chip))) =
    [Transmit (mkTransaction 8 [0x06] 0);
     Transmit (mkTransaction 32 [0xD8; 0; 0; 0] 0);
     Transmit status_transaction; TaskDelay 1] /\
  be_value [0; 0; 0] <> 262144 * PAGES_PER_BLOCK.
Proof.
  unfold is_u32. repeat split; try (vm_compute; congruence).
Qed.

(** ** Geometry *)

(** C4, as the code has it: no hook compares an address with the geometry.
    Whatever the block and the offset, on a chip that becomes ready each hook
    sends its commands and returns [0]; the row address sent is the
    [uint32_t] value [block * PAGES_PER_BLOCK] (plus [offset / PAGE_SIZE] for
    read and prog), cut to its three low bytes by the command. *)
Theorem no_geometry_check (c : lfs_config) (block offset : Z)
  (buffer : list Z) (size : Z) (w : World) (n fuel : nat) :
  (n < fuel)%nat ->
  (ready_after w 2 n ->
   lfs_erase fuel c block w =
   Ret 0 (polled (transmitted w
                    [write_enable_transaction;
                     row_transaction CMD_BLOCK_ERASE
                       (u32 (block * PAGES_PER_BLOCK))]) (S n))) /\
  (ready_after w 3 n ->
   lfs_prog fuel c block offset buffer size w =
   Ret 0 (polled (transmitted w
                    [load_transaction (col_of offset) buffer size;
                     write_enable_transaction;
                     row_transaction CMD_PROGRAM_EXECUTE
                       (page_of block offset)]) (S n))) /\
  (ready_after w 1 n ->
   exists data,
     lfs_read fuel c block offset size w =
     Ret (0, data)
       (transmitted
          (polled (transmitted w
                     [row_transaction CMD_PAGE_DATA_READ
                        (page_of block offset)]) (S n))
          [read_transaction (col_of offset) size])).
Proof.
  intros Hfuel. split; [|split]; intros Hready.
  - now apply lfs_erase_run.
  - now apply lfs_prog_run.
  - eexists. now apply lfs_read_run.
Qed.

Lemma ready_chip_ready (k : nat) : ready_after (boot ready_chip) k 0.
Proof. split; [intros i Hi; lia | reflexivity]. Defined.

Lemma no_geometry_check_witness :
  lfs_erase 1 cfg 1024 (boot ready_chip) =
  Ret 0 (polled (transmitted (boot ready_chip)
                   [write_enable_transaction;
                    row_transaction CMD_BLOCK_ERASE
                      (u32 (1024 * PAGES_PER_BLOCK))]) 1).
Proof.
  apply (no_geometry_check cfg 1024 0 [] 0 (boot ready_chip) 0 1).
  - lia.
  - apply ready_chip_ready.
Defined.

(** C4 fails as stated: [block_count] is 1024, and erasing block 1024
    returns [0] after a block erase at row [0x010000] went out. *)
Lemma erase_out_of_range_accepted :
  block_count cfg = 1024 /\
  result (lfs_erase 1 cfg 1024 (boot ready_chip)) = Some 0 /\
  log (world_of (lfs_erase 1 cfg 1024 (boot ready_chip))) =
    [Transmit (mkTransaction 8 [0x06] 0);
     Transmit (mkTransaction 32 [0xD8; 0x01; 0x00; 0x00] 0);
     Transmit status_transaction; TaskDelay 1].
Proof. repeat split. Qed.

(** ** Error reporting *)

Lemma bind_result_const {A : Type} (m : M A) (r : Z) (w w' : World) (r' : Z) :
  bind m (fun _ => ret r) w = Ret r' w' -> r' = r.
Proof.
  unfold bind, ret. destruct (m w); [|discriminate].
  now intros [= <- _].
Qed.

(** C1, as the code has it: the hooks discard what the transport returns.
    No hook ever returns a value other than [0], and on a chip that becomes
    ready each hook does return [0], whatever result codes
    [spi_device_transmit] gave on the way. *)
Theorem hooks_report_success_only (c : lfs_config) (block offset : Z)
  (buffer : list Z) (size : Z) (fuel : nat) (w : World) :
  (forall r w', lfs_read fuel c block offset size w = Ret r w' -> fst r = 0) /\
  (forall r w', lfs_prog fuel c block offset buffer size w = Ret r w' -> r = 0) /\
  (forall r w', lfs_erase fuel c block w = Ret r w' -> r = 0) /\
  (forall n, (n < fuel)%nat ->
     (ready_after w 1 n ->
      exists data,
        result (lfs_read fuel c block offset size w) = Some (0, data)) /\
     (ready_after w 3 n ->
      result (lfs_prog fuel c block offset buffer size w) = Some 0) /\
     (ready_after w 2 n ->
      result (lfs_erase fuel c block w) = Some 0)).
Proof.
  split; [|split; [|split]].
  - intros r w'. unfold lfs_read. cbv zeta. unfold bind, ret.
    destruct (page_data_read _ _ _); [|discriminate].
    destruct (read_data _ _ _); [|discriminate].
    now intros [= <- _].
  - intros r w'. unfold lfs_prog. cbv zeta. unfold bind at 1.
    destruct (load_program_data _ _ _ _); [|discriminate].
    apply bind_result_const.
  - intros r w'. unfold lfs_erase. apply bind_result_const.
  - intros n Hfuel. split; [|split]; intros Hready.
    + eexists. now rewrite (lfs_read_run c block offset size w n fuel).
    + now rewrite (lfs_prog_run c block offset buffer size w n fuel).
    + now rewrite (lfs_erase_run c block w n fuel).
Qed.

Lemma faulty_chip_ready (k : nat) : ready_after (boot faulty_chip) k 0.
Proof. split; [intros i Hi; lia | reflexivity]. Defined.

Lemma hooks_report_success_only_witness :
  (exists data, result (lfs_read 1 cfg 0 0 5 (boot faulty_chip)) = Some (0, data)) /\
  result (lfs_prog 1 cfg 0 0 hello 5 (boot faulty_chip)) = Some 0 /\
  result (lfs_erase 1 cfg 0 (boot faulty_chip)) = Some 0.
Proof.
  destruct (hooks_report_success_only cfg 0 0 hello 5 1 (boot faulty_chip))
    as (_ & _ & _ & H).
  destruct (H 0%nat ltac:(lia)) as (Hread & Hprog & Herase).
  split; [|split].
  - apply Hread, faulty_chip_ready.
  - apply Hprog, faulty_chip_ready.
  - apply Herase, faulty_chip_ready.
Defined.

(** C1 fails as stated: on a chip whose every transaction fails with
    [ESP_FAIL], that error is the first one each hook meets, and each hook
    returns [0]. *)
Lemma transport_fault_not_reported :
  first_error (boot faulty_chip)
    (world_of (lfs_read 1 cfg 0 0 5 (boot faulty_chip))) = Some ESP_FAIL /\
  option_map fst (result (lfs_read 1 cfg 0 0 5 (boot faulty_chip))) = Some 0 /\
  first_error (boot faulty_chip)
    (world_of (lfs_prog 1 cfg 0 0 hello 5 (boot faulty_chip))) = Some ESP_FAIL /\
  result (lfs_prog 1 cfg 0 0 hello 5 (boot faulty_chip)) = Some 0 /\
  first_error (boot faulty_chip)
    (world_of (lfs_erase 1 cfg 0 (boot faulty_chip))) = Some ESP_FAIL /\
  result (lfs_erase 1 cfg 0 (boot faulty_chip)) = Some 0 /\
  ESP_FAIL <> 0.
Proof. repeat split. discriminate. Qed.

(** ** The status poller *)

Lemma first_ready (w : World) (i : nat) :
  (exists n, (n < i)%nat /\ ready_after w 0 n) \/
  (forall j, (j < i)%nat -> busy (status_at w j) = true).
Proof.
  induction i as [|i [(n & Hn & Hready) | Hbusy]].
  - right. intros j Hj. lia.
  - left. exists n. split; [lia | exact Hready].
  - destruct (busy (status_at w i)) eqn:E.
    + right. intros j Hj.
      destruct (Nat.eq_dec j i) as [-> | Hne]; [exact E | apply Hbusy; lia].
    + left. exists i. split; [lia|]. split; assumption.
Qed.

(** C3, as the code has it: [wait_ready] takes no bound and returns no value.
    It returns exactly when some poll reads the busy bit clear; on a status
    sequence whose busy bit never clears it does not return, however long it
    runs, and every turn it is given goes into one more poll. *)
Theorem wait_ready_unbounded (w : World) :
  ((exists fuel w', wait_ready fuel w = Ret tt w') <->
   (exists i, busy (status_at w i) = false)) /\
  ((forall i, busy (status_at w i) = true) ->
   forall fuel, wait_ready fuel w = Spin (polled w fuel)).
Proof.
  split; [split|].
  - intros (fuel & w' & H).
    apply wait_ready_Ret_inv in H. destruct H as (n & _ & [_ Hready] & _).
    now exists n.
  - intros (i & Hi).
    destruct (first_ready w (S i)) as [(n & Hn & Hready) | Hbusy].
    + exists (S n), (polled w (S n)). apply wait_ready_returns; [assumption | lia].
    + rewrite Hbusy in Hi by lia. discriminate.
  - intros Hbusy fuel. apply wait_ready_spins. intros i _. apply Hbusy.
Qed.

Lemma wait_ready_unbounded_witness :
  wait_ready 1000 (boot stuck_chip) = Spin (polled (boot stuck_chip) 1000).
Proof.
  apply (proj2 (wait_ready_unbounded (boot stuck_chip))).
  intros i. reflexivity.
Defined.

(** C3 fails as stated: on the chip that never clears the busy bit no amount
    of polling makes [wait_ready] return, with a timeout error or otherwise. *)
Lemma wait_ready_never_times_out :
  ~ exists fuel u w', wait_ready fuel (boot stuck_chip) = Ret u w'.
Proof.
  intros (fuel & u & w' & H).
  rewrite wait_ready_spins in H; [discriminate|].
  intros i _. reflexivity.
Qed.

Lemma status_reads_polled (w : World) (n : nat) :
  status_reads (log (polled w n)) = (status_reads (log w) + n)%nat.
Proof.
  unfold status_reads, polled; cbn [log].
  rewrite filter_app, length_app. f_equal.
  induction n as [|n IH]; cbn; [reflexivity | now rewrite IH].
Qed.

(** What [leading_busy] finds in a sequence with a byte whose bit 0 is
    clear. *)
Lemma leading_busy_spec (statuses : list Z) :
  (exists s, In s statuses /\ Z.testbit s 0 = false) ->
  (leading_busy statuses < length statuses)%nat /\
  Z.testbit (nth (leading_busy statuses) statuses 0) 0 = false /\
  (forall i, (i < leading_busy statuses)%nat ->
             Z.testbit (nth i statuses 0) 0 = true).
Proof.
  induction statuses as [|s rest IH]; intros (x & Hin & Hx).
  - destruct Hin.
  - cbn [leading_busy]. destruct (Z.testbit s 0) eqn:E.
    + destruct Hin as [-> | Hin]; [congruence|].
      destruct IH as (Hlen & Hclear & Hset); [now exists x|].
      cbn [length nth]. split; [lia|]. split; [exact Hclear|].
      intros [|i] Hi; [exact E | apply Hset; lia].
    + cbn [length nth]. split; [lia|]. split; [exact E|].
      intros i Hi. lia.
Qed.

(** C7: when the polls read a sequence of status bytes one of which has bit 0
    clear, [wait_ready] returns, after as many status reads as there are
    leading bytes with bit 0 set, plus one. *)
Theorem wait_ready_first_clear (statuses : list Z) (w : World) (fuel : nat) :
  polls_read w statuses ->
  (exists s, In s statuses /\ Z.testbit s 0 = false) ->
  (leading_busy statuses < fuel)%nat ->
  exists w',
    wait_ready fuel w = Ret tt w' /\
    status_reads (log w') =
      (status_reads (log w) + (leading_busy statuses + 1))%nat /\
    sent w' = (sent w + (leading_busy statuses + 1))%nat.
Proof.
  intros Hread Hclear Hfuel.
  destruct (leading_busy_spec statuses Hclear) as (Hlen & Hfirst & Hset).
  exists (polled w (S (leading_busy statuses))).
  split; [|split].
  - apply wait_ready_returns; [|exact Hfuel]. split.
    + intros i Hi. cbn [Nat.add].
      rewrite busy_testbit, Hread by lia. now apply Hset.
    + cbn [Nat.add]. now rewrite busy_testbit, Hread by lia.
  - rewrite status_reads_polled. lia.
  - cbn [polled sent]. lia.
Qed.

Lemma wait_ready_first_clear_witness :
  exists w',
    wait_ready 5 (boot (scripted_chip [0x01; 0x03; 0x00; 0x01])) = Ret tt w' /\
    status_reads (log w') = 3%nat /\
    sent w' = 3%nat.
Proof.
  apply (wait_ready_first_clear [0x01; 0x03; 0x00; 0x01]
           (boot (scripted_chip [0x01; 0x03; 0x00; 0x01])) 5).
  - intros i Hi. do 4 (destruct i as [|i]; [reflexivity|]). cbn in Hi. lia.
  - exists 0x00. split; [cbn; tauto | reflexivity].
  - cbn. lia.
Defined.

Lemma wait_ready_log_grows (fuel : nat) :
  forall w : World,
    exists rest, log (world_of (wait_ready fuel w)) = log w ++ rest.
Proof.
  induction fuel as [|fuel IH]; intros w.
  - exists []. cbn. now rewrite app_nil_r.
  - rewrite wait_ready_step. destruct (busy (status_at w 0)).
    + destruct (IH (polled w 1)) as (rest & ->).
      exists (poll_events 1 ++ rest). cbn [polled log]. now rewrite app_assoc.
    + exists (poll_events 1). reflexivity.
Qed.

(** C9: once it runs, [wait_ready] begins with a status read followed by the
    one-millisecond delay, whatever the chip answers; on a chip that is ready
    at the call it returns with exactly that one read and that one delay
    done. *)
Theorem wait_ready_polls_before_test (fuel : nat) (w : World) :
  (exists rest,
      log (world_of (wait_ready (S fuel) w)) =
      log w ++ Transmit status_transaction :: TaskDelay 1 :: rest) /\
  (1 <= status_reads (log (world_of (wait_ready (S fuel) w)))
        - status_reads (log w))%nat /\
  (busy (status_at w 0) = false ->
   wait_ready (S fuel) w = Ret tt (polled w 1) /\
   log (polled w 1) = log w ++ [Transmit status_transaction; TaskDelay 1]).
Proof.
  assert (H : exists rest,
             log (world_of (wait_ready (S fuel) w)) =
             log w ++ Transmit status_transaction :: TaskDelay 1 :: rest).
  { rewrite wait_ready_step. destruct (busy (status_at w 0)).
    - destruct (wait_ready_log_grows fuel (polled w 1)) as (rest & ->).
      exists rest. cbn [polled log poll_events]. now rewrite <- app_assoc.
    - exists []. reflexivity. }
  split; [exact H|]. split.
  - destruct H as (rest & ->). unfold status_reads.
    rewrite filter_app, length_app. cbn. lia.
  - intros Hready. rewrite wait_ready_step, Hready. split; reflexivity.
Qed.

Lemma wait_ready_polls_before_test_witness :
  wait_ready 1 (boot ready_chip) = Ret tt (polled (boot ready_chip) 1) /\
  log (polled (boot ready_chip) 1) =
    log (boot ready_chip) ++ [Transmit status_transaction; TaskDelay 1].
Proof.
  apply (proj2 (proj2 (wait_ready_polls_before_test 0 (boot ready_chip)))).
  reflexivity.
Defined.

(** ** Programming a page *)

(** The manual test of [app_main] arms the chip before it loads the
    payload. *)
Lemma app_main_manual_test_opcodes :
  opcodes (log (world_of (app_main_manual_test 1 (boot ready_chip)))) =
    [CMD_WRITE_ENABLE; CMD_LOAD_PROGRAM; CMD_WRITE_ENABLE;
     CMD_PROGRAM_EXECUTE; CMD_READ_STATUS].
Proof. reflexivity. Qed.

(** C5: [lfs_prog] sends the load-program command first and write-enable only
    after it, inside [program_execute]; here on block 0, offset 0 with the
    five bytes of [hello]. *)
Theorem lfs_prog_loads_before_write_enable :
  result (lfs_prog 1 cfg 0 0 hello 5 (boot ready_chip)) = Some 0 /\
  log (world_of (lfs_prog 1 cfg 0 0 hello 5 (boot ready_chip))) =
    [Transmit (mkTransaction 72 ([0x02; 0; 0; 0] ++ hello) 0);
     Transmit (mkTransaction 8 [0x06] 0);
     Transmit (mkTransaction 32 [0x10; 0; 0; 0] 0);
     Transmit status_transaction; TaskDelay 1] /\
  opcodes (log (world_of (lfs_prog 1 cfg 0 0 hello 5 (boot ready_chip)))) =
    [CMD_LOAD_PROGRAM; CMD_WRITE_ENABLE; CMD_PROGRAM_EXECUTE; CMD_READ_STATUS].
Proof. repeat split. Qed.

(** * Further properties of the driver *)

(** ** Each operation is its commands followed by the polling loop *)

Lemma erase_block_prefix (fuel : nat) (block : Z) (w : World) :
  erase_block fuel block w =
  wait_ready fuel
    (transmitted w [write_enable_transaction;
                    row_transaction CMD_BLOCK_ERASE
                      (u32 (block * PAGES_PER_BLOCK))]).
Proof.
  unfold erase_block.
  unfold bind at 1. rewrite write_enable_run. cbv iota beta zeta.
  run_bind. now rewrite transmitted_app.
Qed.

Lemma program_execute_prefix (fuel : nat) (page : Z) (w : World) :
  program_execute fuel page w =
  wait_ready fuel
    (transmitted w [write_enable_transaction;
                    row_transaction CMD_PROGRAM_EXECUTE page]).
Proof.
  unfold program_execute.
  unfold bind at 1. rewrite write_enable_run. cbv iota beta zeta.
  run_bind. now rewrite transmitted_app.
Qed.

Lemma page_data_read_prefix (fuel : nat) (page : Z) (w : World) :
  page_data_read fuel page w =
  wait_ready fuel (transmitted w [row_transaction CMD_PAGE_DATA_READ page]).
Proof. unfold page_data_read. cbv zeta. run_bind. reflexivity. Qed.

Lemma lfs_erase_prefix (fuel : nat) (c : lfs_config) (block : Z) (w : World) :
  lfs_erase fuel c block w =
  (wait_ready fuel ;;; ret 0)
    (transmitted w [write_enable_transaction;
                    row_transaction CMD_BLOCK_ERASE
                      (u32 (block * PAGES_PER_BLOCK))]).
Proof. unfold lfs_erase, bind. now rewrite erase_block_prefix. Qed.

Lemma lfs_prog_prefix (fuel : nat) (c : lfs_config) (block offset : Z)
  (buffer : list Z) (size : Z) (w : World) :
  lfs_prog fuel c block offset buffer size w =
  (wait_ready fuel ;;; ret 0)
    (transmitted w [load_transaction (col_of offset) buffer size;
                    write_enable_transaction;
                    row_transaction CMD_PROGRAM_EXECUTE (page_of block offset)]).
Proof.
  unfold lfs_prog. cbv zeta.
  unfold bind at 1. rewrite load_program_data_run. cbv iota beta.
  unfold bind. now rewrite program_execute_prefix, transmitted_app.
Qed.

Lemma lfs_read_prefix (fuel : nat) (c : lfs_config) (block offset size : Z)
  (w : World) :
  lfs_read fuel c block offset size w =
  (wait_ready fuel ;;;
   buffer <- read_data (col_of offset) size ;;
   ret (0, buffer))
    (transmitted w [row_transaction CMD_PAGE_DATA_READ (page_of block offset)]).
Proof.
  unfold lfs_read. cbv zeta.
  unfold bind at 1. rewrite page_data_read_prefix. reflexivity.
Qed.

(** The two ways the polling loop can go. *)
Lemma wait_ready_cases (fuel : nat) (w : World) :
  (exists n, (n < fuel)%nat /\ ready_after w 0 n /\
             wait_ready fuel w = Ret tt (polled w (S n))) \/
  ((forall j, (j < fuel)%nat -> busy (status_at w j) = true) /\
   wait_ready fuel w = Spin (polled w fuel)).
Proof.
  destruct (first_ready w fuel) as [(n & Hn & Hready) | Hbusy].
  - left. exists n. repeat split; try assumption; try apply Hready.
    now apply wait_ready_returns.
  - right. split; [exact Hbusy | now apply wait_ready_spins].
Qed.

(** ** The column commands on the wire *)

Lemma be_value_column (col : Z) :
  is_u16 col -> be_value [u8 (Z.shiftr col 8); u8 col] = col.
Proof.
  unfold is_u16, be_value, u8; cbn [fold_left].
  rewrite Z.shiftr_div_pow2 by lia.
  change (2 ^ 16) with 65536; change (2 ^ 8) with 256.
  intros H. Z.div_mod_to_equations. lia.
Qed.

Lemma nth_map_seq (f : nat -> Z) (n i : nat) :
  (i < n)%nat -> nth i (map f (seq 0 n)) 0 = f i.
Proof.
  intros Hi.
  rewrite (nth_indep _ 0 (f 0%nat)) by now rewrite length_map, length_seq.
  rewrite map_nth, seq_nth by exact Hi. reflexivity.
Qed.

(** X1: [load_program_data] sends one transaction: opcode [0x02], the column
    in two big-endian bytes, a zero byte, then the first [len] bytes of the
    data and nothing more; its bit length is eight times the bytes sent. *)
Theorem load_program_data_wire (col : Z) (data : list Z) (len : Z) (w : World) :
  is_u16 col -> 0 <= len <= Z.of_nat (length data) -> (4 + len) * 8 < 2 ^ 32 ->
  exists t,
    load_program_data col data len w = Ret tt (transmitted w [t]) /\
    firstn 1 (t_tx_buffer t) = [CMD_LOAD_PROGRAM] /\
    column_on_wire t = col /\
    nth 3 (t_tx_buffer t) 1 = 0 /\
    payload_on_wire t = firstn (Z.to_nat len) data /\
    Z.of_nat (length (payload_on_wire t)) = len /\
    t_length t = 8 * Z.of_nat (length (t_tx_buffer t)).
Proof.
  intros Hcol Hlen Hfit.
  exists (load_transaction col data len).
  split; [apply load_program_data_run|].
  unfold column_on_wire, payload_on_wire, load_transaction;
    cbn [t_tx_buffer t_length app firstn skipn nth].
  repeat split.
  - now apply be_value_column.
  - rewrite length_firstn. lia.
  - cbn [length]. rewrite length_firstn. unfold u32.
    rewrite Z.mod_small by lia. lia.
Qed.

Lemma load_program_data_wire_witness :
  exists t,
    load_program_data 0x0123 hello 5 (boot ready_chip) =
      Ret tt (transmitted (boot ready_chip) [t]) /\
    firstn 1 (t_tx_buffer t) = [CMD_LOAD_PROGRAM] /\
    column_on_wire t = 0x0123 /\
    nth 3 (t_tx_buffer t) 1 = 0 /\
    payload_on_wire t = firstn (Z.to_nat 5) hello /\
    Z.of_nat (length (payload_on_wire t)) = 5 /\
    t_length t = 8 * Z.of_nat (length (t_tx_buffer t)).
Proof.
  apply (load_program_data_wire 0x0123 hello 5 (boot ready_chip)).
  - unfold is_u16. lia.
  - cbn. lia.
  - lia.
Defined.



(** ** Addresses on the wire *)

Lemma row_on_wire_row (opcode page : Z) :
  row_on_wire (row_transaction opcode page) = page mod 2 ^ 24.
Proof. unfold row_on_wire, row_transaction; cbn. apply be_value_row. Qed.

Lemma col_of_u16 (offset : Z) : is_u16 (col_of offset).
Proof.
  pose proof (col_of_range offset) as H. unfold PAGE_SIZE in H.
  unfold is_u16. change (2 ^ 16) with 65536. lia.
Qed.

Lemma wire_address (block offset : Z) :
  0 <= block < 2 ^ 18 -> 0 <= offset < BLOCK_SIZE ->
  (page_of block offset) mod 2 ^ 24 * PAGE_SIZE + col_of offset =
  block * BLOCK_SIZE + offset.
Proof.
  intros Hb Ho. change (2 ^ 18) with 262144 in Hb.
  rewrite page_of_exact by (change (2 ^ 26) with 67108864; lia).
  unfold col_of, u16, BLOCK_SIZE, PAGES_PER_BLOCK, PAGE_SIZE in *.
  change (2 ^ 16) with 65536; change (2 ^ 24) with 16777216.
  Z.div_mod_to_equations. lia.
Qed.

Lemma log_polled_transmitted (w : World) (ts : list spi_transaction_t)
  (k : nat) :
  log (polled (transmitted w ts) k) =
  log w ++ map Transmit ts ++ poll_events k.
Proof. cbn [polled transmitted log]. now rewrite app_assoc. Qed.

(** X3: for a block below [2^18] and an offset inside the block, the column
    that [lfs_prog] loads the payload at and the row it executes the program
    on name the byte [block * BLOCK_SIZE + offset] of the flash; the payload
    is the first [size] bytes of the buffer. *)
Theorem lfs_prog_wire_address (fuel : nat) (c : lfs_config)
  (block offset : Z) (buffer : list Z) (size : Z) (w : World) (n : nat) :
  0 <= block < 2 ^ 18 -> 0 <= offset < BLOCK_SIZE ->
  ready_after w 3 n -> (n < fuel)%nat ->
  exists load execute,
    log (world_of (lfs_prog fuel c block offset buffer size w)) =
      log w ++ [Transmit load; Transmit write_enable_transaction;
                Transmit execute] ++ poll_events (S n) /\
    firstn 1 (t_tx_buffer load) = [CMD_LOAD_PROGRAM] /\
    firstn 1 (t_tx_buffer execute) = [CMD_PROGRAM_EXECUTE] /\
    row_on_wire execute * PAGE_SIZE + column_on_wire load =
      block * BLOCK_SIZE + offset /\
    0 <= column_on_wire load < PAGE_SIZE /\
    payload_on_wire load = firstn (Z.to_nat size) buffer.
Proof.
  intros Hb Ho Hready Hfuel.
  exists (load_transaction (col_of offset) buffer size),
         (row_transaction CMD_PROGRAM_EXECUTE (page_of block offset)).
  rewrite (lfs_prog_run c block offset buffer size w n fuel) by assumption.
  cbn [world_of]. rewrite log_polled_transmitted.
  assert (Hcol : column_on_wire (load_transaction (col_of offset) buffer size)
                 = col_of offset).
  { unfold column_on_wire, load_transaction; cbn [t_tx_buffer app firstn skipn].
    apply be_value_column, col_of_u16. }
  rewrite row_on_wire_row, Hcol.
  repeat split; try apply col_of_range.
  now apply wire_address.
Qed.

Lemma lfs_prog_wire_address_witness :
  exists load execute,
    log (world_of (lfs_prog 1 cfg 7 5000 hello 5 (boot ready_chip))) =
      log (boot ready_chip)
        ++ [Transmit load; Transmit write_enable_transaction;
            Transmit execute] ++ poll_events 1 /\
    firstn 1 (t_tx_buffer load) = [CMD_LOAD_PROGRAM] /\
    firstn 1 (t_tx_buffer execute) = [CMD_PROGRAM_EXECUTE] /\
    row_on_wire execute * PAGE_SIZE + column_on_wire load =
      7 * BLOCK_SIZE + 5000 /\
    0 <= column_on_wire load < PAGE_SIZE /\
    payload_on_wire load = firstn (Z.to_nat 5) hello.
Proof.
  apply (lfs_prog_wire_address 1 cfg 7 5000 hello 5 (boot ready_chip) 0).
  - lia.
  - unfold BLOCK_SIZE, PAGE_SIZE, PAGES_PER_BLOCK. lia.
  - apply ready_chip_ready.
  - lia.
Defined.

(** X4: for a block below [2^18] and an offset inside the block, the row that
    [lfs_read] loads into the read register and the column it then streams
    from name the byte [block * BLOCK_SIZE + offset] of the flash; the read
    asks for [size] bytes in one transfer and returns what that transfer
    left in the buffer. *)
Theorem lfs_read_wire_address (fuel : nat) (c : lfs_config)
  (block offset size : Z) (w : World) (n : nat) :
  0 <= block < 2 ^ 18 -> 0 <= offset < BLOCK_SIZE ->
  0 <= size -> (4 + size) * 8 < 2 ^ 32 ->
  ready_after w 1 n -> (n < fuel)%nat ->
  exists load stream data,
    lfs_read fuel c block offset size w =
      Ret (0, data)
          (transmitted (polled (transmitted w [load]) (S n)) [stream]) /\
    firstn 1 (t_tx_buffer load) = [CMD_PAGE_DATA_READ] /\
    firstn 1 (t_tx_buffer stream) = [CMD_READ_DATA] /\
    row_on_wire load * PAGE_SIZE + column_on_wire stream =
      block * BLOCK_SIZE + offset /\
    t_rxlength stream = 8 * size /\
    Z.of_nat (length data) = size /\
    (forall i, (i < length data)%nat ->
               nth i data 0 = u8 (rx (chip w (sent w + 1 + S n)) i)).
Proof.
  intros Hb Ho Hsize Hfit Hready Hfuel.
  exists (row_transaction CMD_PAGE_DATA_READ (page_of block offset)),
         (read_transaction (col_of offset) size),
         (map (fun i => u8 (rx (chip w (sent w + 1 + S n)) i))
              (seq 0 (Z.to_nat size))).
  split; [now apply lfs_read_run|].
  assert (Hcol : column_on_wire (read_transaction (col_of offset) size)
                 = col_of offset).
  { unfold column_on_wire, read_transaction; cbn [t_tx_buffer firstn skipn].
    apply be_value_column, col_of_u16. }
  rewrite row_on_wire_row, Hcol, length_map, length_seq.
  repeat split.
  - now apply wire_address.
  - unfold read_transaction; cbn [t_rxlength]. unfold u32.
    rewrite Z.mod_small by lia. lia.
  - lia.
  - intros i Hi. now rewrite nth_map_seq.
Qed.

Lemma lfs_read_wire_address_witness :
  exists load stream data,
    lfs_read 1 cfg 7 5000 5 (boot ready_chip) =
      Ret (0, data)
          (transmitted (polled (transmitted (boot ready_chip) [load]) 1)
             [stream]) /\
    firstn 1 (t_tx_buffer load) = [CMD_PAGE_DATA_READ] /\
    firstn 1 (t_tx_buffer stream) = [CMD_READ_DATA] /\
    row_on_wire load * PAGE_SIZE + column_on_wire stream =
      7 * BLOCK_SIZE + 5000 /\
    t_rxlength stream = 8 * 5 /\
    Z.of_nat (length data) = 5 /\
    (forall i, (i < length data)%nat ->
               nth i data 0 =
               u8 (rx (chip (boot ready_chip)
                         (sent (boot ready_chip) + 1 + 1)) i)).
Proof.
  apply (lfs_read_wire_address 1 cfg 7 5000 5 (boot ready_chip) 0).
  - lia.
  - unfold BLOCK_SIZE, PAGE_SIZE, PAGES_PER_BLOCK. lia.
  - lia.
  - lia.
  - apply ready_chip_ready.
  - lia.
Defined.

(** ** The address translation *)

(** X5: below block [2^26], two places of the flash never share a page and a
    column: the translation of [lfs_read] and [lfs_prog] is one-to-one. *)
Theorem address_translation_injective (block offset block' offset' : Z) :
  0 <= block < 2 ^ 26 -> 0 <= block' < 2 ^ 26 ->
  0 <= offset < BLOCK_SIZE -> 0 <= offset' < BLOCK_SIZE ->
  page_of block offset = page_of block' offset' ->
  col_of offset = col_of offset' ->
  block = block' /\ offset = offset'.
Proof.
  intros Hb Hb' Ho Ho'. rewrite !page_of_exact by assumption.
  unfold col_of, u16, BLOCK_SIZE, PAGES_PER_BLOCK, PAGE_SIZE in *.
  change (2 ^ 16) with 65536; change (2 ^ 26) with 67108864 in *.
  intros Hp Hc. Z.div_mod_to_equations. lia.
Qed.

Lemma address_translation_injective_witness :
  3 = 3 /\ 5000 = 5000.
Proof.
  apply (address_translation_injective 3 5000 3 5000);
    try reflexivity;
    unfold BLOCK_SIZE, PAGE_SIZE, PAGES_PER_BLOCK; lia.
Defined.

(** X6: an offset at or past the end of the block is not refused: it is
    translated to the page and column of the same offset in the next block. *)
Theorem offset_past_block_end (block offset : Z) :
  is_u32 block -> 0 <= offset -> is_u32 (offset + BLOCK_SIZE) ->
  page_of block (offset + BLOCK_SIZE) = page_of (u32 (block + 1)) offset /\
  col_of (offset + BLOCK_SIZE) = col_of offset.
Proof.
  unfold is_u32, page_of, col_of, u32, u16, BLOCK_SIZE, PAGES_PER_BLOCK,
    PAGE_SIZE.
  change (2 ^ 16) with 65536; change (2 ^ 32) with 4294967296.
  intros Hb Ho Hfit. split; Z.div_mod_to_equations; lia.
Qed.

Lemma offset_past_block_end_witness :
  page_of 3 (5000 + BLOCK_SIZE) = page_of (u32 (3 + 1)) 5000 /\
  col_of (5000 + BLOCK_SIZE) = col_of 5000.
Proof.
  apply (offset_past_block_end 3 5000);
    unfold is_u32, BLOCK_SIZE, PAGE_SIZE, PAGES_PER_BLOCK; lia.
Defined.

(** X7: the row [erase_block] sends is the first of [PAGES_PER_BLOCK] rows,
    a multiple of [PAGES_PER_BLOCK], and below block [2^26] every page that
    [lfs_read] and [lfs_prog] compute for an offset inside the block is one of
    those rows. *)
Theorem erase_row_covers_block (block offset : Z) :
  0 <= block < 2 ^ 26 -> 0 <= offset < BLOCK_SIZE ->
  exists row,
    (forall fuel w,
        erase_block fuel block w =
        wait_ready fuel
          (transmitted w [write_enable_transaction;
                          row_transaction CMD_BLOCK_ERASE row])) /\
    row mod PAGES_PER_BLOCK = 0 /\
    row <= page_of block offset < row + PAGES_PER_BLOCK.
Proof.
  intros Hb Ho. exists (u32 (block * PAGES_PER_BLOCK)).
  split; [intros fuel w; apply erase_block_prefix|].
  rewrite page_of_exact by assumption.
  unfold u32, BLOCK_SIZE, PAGES_PER_BLOCK, PAGE_SIZE in *.
  change (2 ^ 26) with 67108864 in Hb; change (2 ^ 32) with 4294967296.
  split; [|split]; Z.div_mod_to_equations; lia.
Qed.

Lemma erase_row_covers_block_witness :
  exists row,
    (forall fuel w,
        erase_block fuel 3 w =
        wait_ready fuel
          (transmitted w [write_enable_transaction;
                          row_transaction CMD_BLOCK_ERASE row])) /\
    row mod PAGES_PER_BLOCK = 0 /\
    row <= page_of 3 5000 < row + PAGES_PER_BLOCK.
Proof.
  apply (erase_row_covers_block 3 5000);
    unfold BLOCK_SIZE, PAGE_SIZE, PAGES_PER_BLOCK; lia.
Defined.

(** ** What the polling loop and the read path send *)

Lemma delays_polled (w : World) (n : nat) :
  delays (log (polled w n)) = (delays (log w) + n)%nat.
Proof.
  unfold delays, polled; cbn [log].
  rewrite filter_app, length_app. f_equal.
  induction n as [|n IH]; cbn; [reflexivity | now rewrite IH].
Qed.

Lemma opcodes_app (l l' : list event) :
  opcodes (l ++ l') = opcodes l ++ opcodes l'.
Proof. unfold opcodes. apply flat_map_app. Qed.

Lemma opcodes_poll_events (k : nat) :
  opcodes (poll_events k) = repeat CMD_READ_STATUS k.
Proof. induction k as [|k IH]; cbn; [reflexivity | now f_equal]. Qed.

(** X8: however the chip answers and however long it runs, [wait_ready] sends
    nothing but status reads, each followed by one delay, never more of them
    than turns of its loop, and leaves the rest of the world alone. *)
Theorem wait_ready_only_polls (fuel : nat) (w : World) :
  exists k,
    (k <= fuel)%nat /\
    world_of (wait_ready fuel w) = polled w k /\
    log (world_of (wait_ready fuel w)) = log w ++ poll_events k /\
    opcodes (poll_events k) = repeat CMD_READ_STATUS k /\
    status_reads (log (world_of (wait_ready fuel w))) =
      (status_reads (log w) + k)%nat /\
    delays (log (world_of (wait_ready fuel w))) = (delays (log w) + k)%nat.
Proof.
  destruct (wait_ready_cases fuel w) as [(n & Hn & _ & ->) | (_ & ->)];
    [exists (S n) | exists fuel]; cbn [world_of];
    rewrite status_reads_polled, delays_polled, opcodes_poll_events;
    repeat split; lia.
Qed.

Lemma reading_opcode_repeat (k : nat) :
  Forall reading_opcode (repeat CMD_READ_STATUS k).
Proof.
  apply Forall_forall. intros op Hop. apply repeat_spec in Hop.
  subst op. right; left; reflexivity.
Qed.

(** X9: [lfs_read] never arms, programs or erases the chip: whatever the
    arguments, the chip's answers and the time it runs, every command it sends
    is a page-data-read, a status read or a read-data. *)
Theorem lfs_read_only_reads (fuel : nat) (c : lfs_config)
  (block offset size : Z) (w : World) :
  exists added,
    log (world_of (lfs_read fuel c block offset size w)) = log w ++ added /\
    Forall reading_opcode (opcodes added) /\
    ~ In CMD_WRITE_ENABLE (opcodes added) /\
    ~ In CMD_LOAD_PROGRAM (opcodes added) /\
    ~ In CMD_PROGRAM_EXECUTE (opcodes added) /\
    ~ In CMD_BLOCK_ERASE (opcodes added).
Proof.
  assert (H : exists added,
             log (world_of (lfs_read fuel c block offset size w)) =
               log w ++ added /\
             Forall reading_opcode (opcodes added)).
  { rewrite lfs_read_prefix. unfold bind at 1.
    set (load := row_transaction CMD_PAGE_DATA_READ (page_of block offset)).
    destruct (wait_ready_cases fuel (transmitted w [load]))
      as [(n & _ & _ & ->) | (_ & ->)].
    - unfold bind. rewrite read_data_run. cbn [ret world_of].
      exists (Transmit load :: poll_events (S n)
                ++ [Transmit (read_transaction (col_of offset) size)]).
      split.
      + cbn [transmitted polled log map]. rewrite <- !app_assoc. reflexivity.
      + change (Transmit load :: poll_events (S n) ++ ?l)
          with ([Transmit load] ++ poll_events (S n) ++ l).
        rewrite !opcodes_app, opcodes_poll_events.
        apply Forall_app. split; [|apply Forall_app; split].
        * repeat constructor.
        * apply reading_opcode_repeat.
        * cbn. constructor; [right; right; reflexivity | constructor].
    - cbn [world_of].
      exists (Transmit load :: poll_events fuel). split.
      + cbn [transmitted polled log map]. rewrite <- !app_assoc. reflexivity.
      + change (Transmit load :: poll_events fuel)
          with ([Transmit load] ++ poll_events fuel).
        rewrite opcodes_app, opcodes_poll_events.
        apply Forall_app. split; [repeat constructor|].
        apply reading_opcode_repeat. }
  destruct H as (added & Hlog & Hall). exists added.
  split; [exact Hlog|]. split; [exact Hall|].
  rewrite Forall_forall in Hall.
  repeat split; intros Hin; apply Hall in Hin;
    destruct Hin as [E | [E | E]]; discriminate E.
Qed.

(** ** What the driver does not look at *)

Lemma same_bit0_ready_after (w1 w2 : World) (n : nat) :
  same_bit0 w1 w2 -> ready_after w1 0 n -> ready_after w2 0 n.
Proof.
  intros (_ & _ & Hbit) [Hbusy Hready]. split.
  - intros i Hi. rewrite busy_testbit, <- Hbit, <- busy_testbit. now apply Hbusy.
  - now rewrite busy_testbit, <- Hbit, <- busy_testbit.
Qed.

(** On worlds whose polls agree on bit 0 the loop takes the same course. *)
Lemma wait_ready_same_bit0 (fuel : nat) (w1 w2 : World) :
  same_bit0 w1 w2 ->
  (exists n, wait_ready fuel w1 = Ret tt (polled w1 (S n)) /\
             wait_ready fuel w2 = Ret tt (polled w2 (S n))) \/
  (wait_ready fuel w1 = Spin (polled w1 fuel) /\
   wait_ready fuel w2 = Spin (polled w2 fuel)).
Proof.
  intros Hsame.
  destruct (wait_ready_cases fuel w1) as [(n & Hn & Hready & E) | (Hbusy & E)].
  - left. exists n. split; [exact E|].
    apply wait_ready_returns; [|exact Hn].
    now apply (same_bit0_ready_after w1 w2).
  - right. split; [exact E|].
    apply wait_ready_spins. intros j Hj.
    destruct Hsame as (_ & _ & Hbit).
    rewrite busy_testbit, <- Hbit, <- busy_testbit. now apply Hbusy.
Qed.

Lemma polled_same_log (w1 w2 : World) (k : nat) :
  sent w1 = sent w2 -> log w1 = log w2 ->
  sent (polled w1 k) = sent (polled w2 k) /\
  log (polled w1 k) = log (polled w2 k).
Proof. intros Hs Hl. cbn [polled sent log]. now rewrite Hs, Hl. Qed.

(** X10: of the status byte [wait_ready] looks at bit 0 only: on two chips
    whose status bytes agree on that bit it returns or goes on alike, after the
    same commands. *)
Theorem wait_ready_reads_bit0_only (fuel : nat) (w1 w2 : World) :
  same_bit0 w1 w2 ->
  result (wait_ready fuel w1) = result (wait_ready fuel w2) /\
  sent (world_of (wait_ready fuel w1)) = sent (world_of (wait_ready fuel w2)) /\
  log (world_of (wait_ready fuel w1)) = log (world_of (wait_ready fuel w2)).
Proof.
  intros Hsame. pose proof Hsame as (Hs & Hl & _).
  destruct (wait_ready_same_bit0 fuel w1 w2 Hsame)
    as [(n & -> & ->) | (-> & ->)]; cbn [result world_of];
    (split; [reflexivity | now apply polled_same_log]).
Qed.

Lemma wait_ready_reads_bit0_only_witness :
  result (wait_ready 3 (boot ready_chip)) =
    result (wait_ready 3 (boot noisy_chip)) /\
  sent (world_of (wait_ready 3 (boot ready_chip))) =
    sent (world_of (wait_ready 3 (boot noisy_chip))) /\
  log (world_of (wait_ready 3 (boot ready_chip))) =
    log (world_of (wait_ready 3 (boot noisy_chip))).
Proof.
  apply (wait_ready_reads_bit0_only 3 (boot ready_chip) (boot noisy_chip)).
  split; [reflexivity|]. split; [reflexivity|]. intros i. reflexivity.
Defined.

Lemma same_rx_transmitted (w1 w2 : World) (ts : list spi_transaction_t) :
  same_rx w1 w2 -> same_rx (transmitted w1 ts) (transmitted w2 ts).
Proof.
  intros (Hs & Hl & Hrx). unfold same_rx, transmitted; cbn [sent log chip].
  now rewrite Hs, Hl.
Qed.

Lemma same_rx_polled (w1 w2 : World) (k : nat) :
  same_rx w1 w2 -> same_rx (polled w1 k) (polled w2 k).
Proof.
  intros (Hs & Hl & Hrx). unfold same_rx, polled; cbn [sent log chip].
  now rewrite Hs, Hl.
Qed.

Lemma same_rx_same_bit0 (w1 w2 : World) : same_rx w1 w2 -> same_bit0 w1 w2.
Proof.
  intros (Hs & Hl & Hrx). repeat split; try assumption.
  intros i. unfold status_at. now rewrite Hs, Hrx.
Qed.

(** The polling loop followed by a constant result, on worlds that differ in
    result codes only. *)
Lemma wait_then_ret_same_rx (fuel : nat) (r : Z) (w1 w2 : World) :
  same_rx w1 w2 ->
  result ((wait_ready fuel ;;; ret r) w1) =
    result ((wait_ready fuel ;;; ret r) w2) /\
  log (world_of ((wait_ready fuel ;;; ret r) w1)) =
    log (world_of ((wait_ready fuel ;;; ret r) w2)).
Proof.
  intros Hsame. pose proof Hsame as (Hs & Hl & _). unfold bind, ret.
  destruct (wait_ready_same_bit0 fuel w1 w2 (same_rx_same_bit0 _ _ Hsame))
    as [(n & -> & ->) | (-> & ->)]; cbn [result world_of];
    (split; [reflexivity | now apply polled_same_log]).
Qed.

(** X11: the result codes of the transport change nothing: on two chips that
    leave the same bytes in the receive buffers, whatever [spi_device_transmit]
    returns, each hook returns the same value (the same data, for a read) or
    goes on polling alike, after the same commands. *)
Theorem transport_results_ignored (fuel : nat) (c : lfs_config)
  (block offset : Z) (buffer : list Z) (size : Z) (w1 w2 : World) :
  same_rx w1 w2 ->
  (result (lfs_read fuel c block offset size w1) =
     result (lfs_read fuel c block offset size w2) /\
   log (world_of (lfs_read fuel c block offset size w1)) =
     log (world_of (lfs_read fuel c block offset size w2))) /\
  (result (lfs_prog fuel c block offset buffer size w1) =
     result (lfs_prog fuel c block offset buffer size w2) /\
   log (world_of (lfs_prog fuel c block offset buffer size w1)) =
     log (world_of (lfs_prog fuel c block offset buffer size w2))) /\
  (result (lfs_erase fuel c block w1) = result (lfs_erase fuel c block w2) /\
   log (world_of (lfs_erase fuel c block w1)) =
     log (world_of (lfs_erase fuel c block w2))).
Proof.
  intros Hsame. split; [|split].
  - rewrite !lfs_read_prefix. unfold bind at 1 3 5 7.
    set (load := row_transaction CMD_PAGE_DATA_READ (page_of block offset)).
    pose proof (same_rx_transmitted w1 w2 [load] Hsame) as Hsame'.
    destruct (wait_ready_same_bit0 fuel _ _ (same_rx_same_bit0 _ _ Hsame'))
      as [(n & -> & ->) | (-> & ->)].
    + unfold bind, ret. rewrite !read_data_run. cbn [result world_of].
      pose proof (same_rx_polled _ _ (S n) Hsame') as (Hs & Hl & Hrx).
      split.
      * do 2 f_equal. rewrite Hs. apply map_ext. intros i. now rewrite Hrx.
      * cbn [transmitted log]. now rewrite Hl.
    + cbn [result world_of]. split; [reflexivity|].
      now apply polled_same_log; apply Hsame'.
  - rewrite !lfs_prog_prefix.
    now apply wait_then_ret_same_rx, same_rx_transmitted.
  - rewrite !lfs_erase_prefix.
    now apply wait_then_ret_same_rx, same_rx_transmitted.
Qed.

Lemma transport_results_ignored_witness :
  (result (lfs_read 2 cfg 7 5000 5 (boot ready_chip)) =
     result (lfs_read 2 cfg 7 5000 5 (boot faulty_chip)) /\
   log (world_of (lfs_read 2 cfg 7 5000 5 (boot ready_chip))) =
     log (world_of (lfs_read 2 cfg 7 5000 5 (boot faulty_chip)))) /\
  (result (lfs_prog 2 cfg 7 5000 hello 5 (boot ready_chip)) =
     result (lfs_prog 2 cfg 7 5000 hello 5 (boot faulty_chip)) /\
   log (world_of (lfs_prog 2 cfg 7 5000 hello 5 (boot ready_chip))) =
     log (world_of (lfs_prog 2 cfg 7 5000 hello 5 (boot faulty_chip)))) /\
  (result (lfs_erase 2 cfg 7 (boot ready_chip)) =
     result (lfs_erase 2 cfg 7 (boot faulty_chip)) /\
   log (world_of (lfs_erase 2 cfg 7 (boot ready_chip))) =
     log (world_of (lfs_erase 2 cfg 7 (boot faulty_chip)))).
Proof.
  apply (transport_results_ignored 2 cfg 7 5000 hello 5
           (boot ready_chip) (boot faulty_chip)).
  split; [reflexivity|]. split; [reflexivity|]. intros n i. reflexivity.
Defined.

(** ** A chip that stays busy, a chip that is always ready *)

(** X12: on a chip that never clears the busy bit no hook returns: each sends
    its commands and then polls for as long as it runs, and a read never gets
    to the read-data command. *)
Theorem hooks_hang_on_stuck_chip (fuel : nat) (c : lfs_config)
  (block offset : Z) (buffer : list Z) (size : Z) (w : World) :
  (forall i, busy (status_at w i) = true) ->
  lfs_erase fuel c block w =
    Spin (polled (transmitted w
                    [write_enable_transaction;
                     row_transaction CMD_BLOCK_ERASE
                       (u32 (block * PAGES_PER_BLOCK))]) fuel) /\
  lfs_prog fuel c block offset buffer size w =
    Spin (polled (transmitted w
                    [load_transaction (col_of offset) buffer size;
                     write_enable_transaction;
                     row_transaction CMD_PROGRAM_EXECUTE
                       (page_of block offset)]) fuel) /\
  lfs_read fuel c block offset size w =
    Spin (polled (transmitted w
                    [row_transaction CMD_PAGE_DATA_READ
                       (page_of block offset)]) fuel).
Proof.
  intros Hbusy.
  assert (Hspin : forall ts,
             wait_ready fuel (transmitted w ts) =
             Spin (polled (transmitted w ts) fuel)).
  { intros ts. apply wait_ready_spins. intros i _.
    rewrite status_at_transmitted. apply Hbusy. }
  split; [|split].
  - rewrite lfs_erase_prefix. unfold bind. now rewrite Hspin.
  - rewrite lfs_prog_prefix. unfold bind. now rewrite Hspin.
  - rewrite lfs_read_prefix. unfold bind at 1. now rewrite Hspin.
Qed.

Lemma hooks_hang_on_stuck_chip_witness :
  lfs_erase 50 cfg 7 (boot stuck_chip) =
    Spin (polled (transmitted (boot stuck_chip)
                    [write_enable_transaction;
                     row_transaction CMD_BLOCK_ERASE
                       (u32 (7 * PAGES_PER_BLOCK))]) 50) /\
  lfs_prog 50 cfg 7 5000 hello 5 (boot stuck_chip) =
    Spin (polled (transmitted (boot stuck_chip)
                    [load_transaction (col_of 5000) hello 5;
                     write_enable_transaction;
                     row_transaction CMD_PROGRAM_EXECUTE
                       (page_of 7 5000)]) 50) /\
  lfs_read 50 cfg 7 5000 5 (boot stuck_chip) =
    Spin (polled (transmitted (boot stuck_chip)
                    [row_transaction CMD_PAGE_DATA_READ
                       (page_of 7 5000)]) 50).
Proof.
  apply (hooks_hang_on_stuck_chip 50 cfg 7 5000 hello 5 (boot stuck_chip)).
  intros i. reflexivity.
Defined.

(** X13: on a chip that answers every poll ready, erase, prog and read of the
    same place run one after the other and each returns [0] after a single
    poll; ten transactions go out, in the order write-enable, block erase,
    status, load, write-enable, program execute, status, page data read,
    status, read data, and the data returned are the [size] bytes of the reply
    to the last of them. *)
Theorem erase_prog_read_sequence (fuel : nat) (c : lfs_config)
  (block offset : Z) (buffer : list Z) (size : Z) (w : World) :
  (forall i, busy (status_at w i) = false) -> 0 <= size ->
  exists data w' added,
    erase_prog_read (S fuel) c block offset buffer size w =
      Ret (0, 0, (0, data)) w' /\
    log w' = log w ++ added /\
    opcodes added =
      [CMD_WRITE_ENABLE; CMD_BLOCK_ERASE; CMD_READ_STATUS;
       CMD_LOAD_PROGRAM; CMD_WRITE_ENABLE; CMD_PROGRAM_EXECUTE; CMD_READ_STATUS;
       CMD_PAGE_DATA_READ; CMD_READ_STATUS; CMD_READ_DATA] /\
    sent w' = (sent w + 10)%nat /\
    Z.of_nat (length data) = size /\
    (forall i, (i < length data)%nat ->
               nth i data 0 = u8 (rx (chip w (sent w + 9)) i)).
Proof.
  intros Hready Hsize.
  set (erase := [write_enable_transaction;
                 row_transaction CMD_BLOCK_ERASE
                   (u32 (block * PAGES_PER_BLOCK))]).
  set (prog := [load_transaction (col_of offset) buffer size;
                write_enable_transaction;
                row_transaction CMD_PROGRAM_EXECUTE (page_of block offset)]).
  set (load := row_transaction CMD_PAGE_DATA_READ (page_of block offset)).
  set (stream := read_transaction (col_of offset) size).
  set (w1 := polled (transmitted w erase) 1).
  set (w2 := polled (transmitted w1 prog) 1).
  assert (H1 : lfs_erase (S fuel) c block w = Ret 0 w1).
  { apply lfs_erase_run; [|lia]. split; [intros i Hi; lia | apply Hready]. }
  assert (H2 : lfs_prog (S fuel) c block offset buffer size w1 = Ret 0 w2).
  { apply lfs_prog_run; [|lia]. split; [intros i Hi; lia|].
    unfold w1. rewrite status_at_polled, status_at_transmitted. apply Hready. }
  pose proof (lfs_read_run c block offset size w2 0 (S fuel)) as H3.
  exists (map (fun i => u8 (rx (chip w2 (sent w2 + 1 + 1)) i))
              (seq 0 (Z.to_nat size))),
         (transmitted (polled (transmitted w2 [load]) 1) [stream]),
         (map Transmit erase ++ poll_events 1 ++ map Transmit prog
            ++ poll_events 1 ++ [Transmit load] ++ poll_events 1
            ++ [Transmit stream]).
  split; [|split; [|split; [|split; [|split]]]].
  - unfold erase_prog_read, bind. rewrite H1, H2, H3; [reflexivity| |lia].
    split; [intros i Hi; lia|]. unfold w2, w1.
    repeat (rewrite status_at_polled || rewrite status_at_transmitted).
    apply Hready.
  - unfold w2, w1. cbn [transmitted polled log map].
    rewrite <- !app_assoc. reflexivity.
  - reflexivity.
  - unfold w2, w1, prog, erase. cbn [transmitted polled sent length]. lia.
  - rewrite length_map, length_seq. lia.
  - intros i Hi. rewrite length_map, length_seq in Hi.
    rewrite nth_map_seq by exact Hi.
    unfold w2, w1, prog, erase. cbn [transmitted polled sent chip length].
    replace (sent w + 2 + 1 + 3 + 1 + 1 + 1)%nat with (sent w + 9)%nat by lia.
    reflexivity.
Qed.

Lemma erase_prog_read_sequence_witness :
  exists data w' added,
    erase_prog_read 1 cfg 7 5000 hello 5 (boot ready_chip) =
      Ret (0, 0, (0, data)) w' /\
    log w' = log (boot ready_chip) ++ added /\
    opcodes added =
      [CMD_WRITE_ENABLE; CMD_BLOCK_ERASE; CMD_READ_STATUS;
       CMD_LOAD_PROGRAM; CMD_WRITE_ENABLE; CMD_PROGRAM_EXECUTE; CMD_READ_STATUS;
       CMD_PAGE_DATA_READ; CMD_READ_STATUS; CMD_READ_DATA] /\
    sent w' = (sent (boot ready_chip) + 10)%nat /\
    Z.of_nat (length data) = 5 /\
    (forall i, (i < length data)%nat ->
               nth i data 0 =
               u8 (rx (chip (boot ready_chip)
                         (sent (boot ready_chip) + 9)) i)).
Proof.
  apply (erase_prog_read_sequence 0 cfg 7 5000 hello 5 (boot ready_chip)).
  - intros i. reflexivity.
  - lia.
Defined.

(** ** The geometry that [initialize_lfs] configures *)

(** X14: for every block and offset of the geometry in [cfg] (1024 blocks of
    [BLOCK_SIZE] bytes) nothing wraps and nothing is cut: the page computed is
    [block * PAGES_PER_BLOCK + offset / PAGE_SIZE], one of the 65536 pages; the
    three row bytes of the program, read and erase commands carry the row
    unchanged; and page and column name the byte
    [block * block_size + offset]. *)
Theorem configured_geometry_addressable (block offset : Z) :
  0 <= block < block_count cfg -> 0 <= offset < block_size cfg ->
  page_of block offset = block * PAGES_PER_BLOCK + offset / PAGE_SIZE /\
  0 <= page_of block offset < block_count cfg * PAGES_PER_BLOCK /\
  row_on_wire (row_transaction CMD_PROGRAM_EXECUTE (page_of block offset)) =
    page_of block offset /\
  row_on_wire (row_transaction CMD_PAGE_DATA_READ (page_of block offset)) =
    page_of block offset /\
  row_on_wire (row_transaction CMD_BLOCK_ERASE (u32 (block * PAGES_PER_BLOCK))) =
    block * PAGES_PER_BLOCK /\
  page_of block offset * PAGE_SIZE + col_of offset =
    block * block_size cfg + offset.
Proof.
  cbn [cfg block_count block_size]. intros Hb Ho.
  assert (Hpage : page_of block offset =
                  block * PAGES_PER_BLOCK + offset / PAGE_SIZE).
  { apply page_of_exact; [change (2 ^ 26) with 67108864; lia | exact Ho]. }
  assert (Hrange : 0 <= page_of block offset < 1024 * PAGES_PER_BLOCK).
  { rewrite Hpage. unfold BLOCK_SIZE, PAGES_PER_BLOCK, PAGE_SIZE in *.
    Z.div_mod_to_equations. lia. }
  rewrite !row_on_wire_row.
  split; [exact Hpage|]. split; [exact Hrange|].
  unfold PAGES_PER_BLOCK in Hrange.
  split; [|split; [|split]].
  - apply Z.mod_small. change (2 ^ 24) with 16777216. lia.
  - apply Z.mod_small. change (2 ^ 24) with 16777216. lia.
  - unfold u32, PAGES_PER_BLOCK.
    change (2 ^ 24) with 16777216; change (2 ^ 32) with 4294967296.
    Z.div_mod_to_equations. lia.
  - rewrite Hpage.
    unfold col_of, u16, BLOCK_SIZE, PAGES_PER_BLOCK, PAGE_SIZE in *.
    change (2 ^ 16) with 65536.
    Z.div_mod_to_equations. lia.
Qed.

Lemma configured_geometry_addressable_witness :
  page_of 1023 131071 = 1023 * PAGES_PER_BLOCK + 131071 / PAGE_SIZE /\
  0 <= page_of 1023 131071 < block_count cfg * PAGES_PER_BLOCK /\
  row_on_wire (row_transaction CMD_PROGRAM_EXECUTE (page_of 1023 131071)) =
    page_of 1023 131071 /\
  row_on_wire (row_transaction CMD_PAGE_DATA_READ (page_of 1023 131071)) =
    page_of 1023 131071 /\
  row_on_wire (row_transaction CMD_BLOCK_ERASE (u32 (1023 * PAGES_PER_BLOCK))) =
    1023 * PAGES_PER_BLOCK /\
  page_of 1023 131071 * PAGE_SIZE + col_of 131071 =
    1023 * block_size cfg + 131071.
Proof.
  apply (configured_geometry_addressable 1023 131071).
  - cbn. lia.
  - cbn. lia.
Defined.
